(** * ClickHouseBackup: the client of [clickhouse_backup/clickhouse/client.py]

    A shallow embedding of [class Client]: the validation done by the
    constructor, the destination clause of [_get_backup_path], the
    statement assembled by [_backup_command] (shared by [backup] and
    [restore]) and [get_backup_status].

    Strings are [string]; an [Optional[str]] parameter is an
    [option string]; Python exceptions are values of [exn]; the two external
    collaborators (the driver session and the filesystem) are the variables
    of a section, and every call threads the trace of what was sent to the
    driver, so that "nothing was submitted" is a statement about that trace.
    The [logger.info] lines of the source write no statement and are left
    out. *)

From Stdlib Require Import Ascii String List PeanoNat Lia.
Import ListNotations.
Open Scope string_scope.

(** ** Python values *)

(** Truth value of a [str]: only the empty string is falsy. *)
Definition str_truthy (s : string) : bool :=
  match s with
  | EmptyString => false
  | String _ _ => true
  end.

(** Truth value of an [Optional[str]]: [None] and the empty string are falsy.
    A [pathlib.Path] is modelled by its [str()], which is never empty, as a
    [Path] is never falsy. *)
Definition truthy (o : option string) : bool :=
  match o with
  | None => false
  | Some s => str_truthy s
  end.

(** What an f-string writes for an [Optional[str]]. *)
Definition fstr (o : option string) : string :=
  match o with
  | None => "None"
  | Some s => s
  end.

(** [xs or default] on an optional list: [None] and the empty list are
    both falsy. *)
Definition list_or (xs : option (list string)) (default : list string)
  : list string :=
  match xs with
  | None => default
  | Some [] => default
  | Some (x :: l) => x :: l
  end.

(** [sep.join(xs)]. *)
Definition join (sep : string) (xs : list string) : string :=
  String.concat sep xs.

(** ** Exceptions *)

Inductive exn : Type :=
| ValueError (msg : string)
| FileNotFoundError (msg : string)
| AttributeError (msg : string)
| DriverError (msg : string).

(** ** Data model *)

(** [class BackupTarget(Enum)]. *)
Inductive BackupTarget : Type := FILE | DISK | S3.

Definition BackupTarget_value (t : BackupTarget) : string :=
  match t with
  | FILE => "File"
  | DISK => "Disk"
  | S3 => "S3"
  end.

(** The value held by [backup_target]. The annotation is not enforced, so it
    is a member of the enumeration or any other object, kept by the text an
    f-string writes for it. *)
Inductive target_value : Type :=
| Member (t : BackupTarget)
| NotMember (shown : string).

(** Modelled from the spec: [Backup] and [FullBackup] of
    [clickhouse_backup.utils.datatypes], which this file imports. A backup
    is identified by a relative path string, read by the client as [.path];
    a [FullBackup] is a [Backup] that may serve as base backup. They are
    plain objects, hence truthy. *)
Record Backup : Type := { path : string }.

Definition FullBackup : Type := Backup.

(** The value received as [base_backup]: [_backup_command] and [backup]
    annotate it [Optional[FullBackup]], [restore] annotates it
    [Optional[str]]. *)
Inductive base_backup_value : Type :=
| BaseBackup (b : FullBackup)
| BaseStr (s : string).

Definition base_truthy (b : option base_backup_value) : bool :=
  match b with
  | None => false
  | Some (BaseBackup _) => true
  | Some (BaseStr s) => str_truthy s
  end.

(** [base_backup.path]. *)
Definition base_path (b : option base_backup_value) : exn + string :=
  match b with
  | None => inl (AttributeError "'NoneType' object has no attribute 'path'")
  | Some (BaseBackup fb) => inr (path fb)
  | Some (BaseStr _) => inl (AttributeError "'str' object has no attribute 'path'")
  end.

(** The driver's handle, [clickhouse_driver.Client(host, port, user, password)]. *)
Record ClickHouseClient : Type := {
  conn_host : string;
  conn_port : string;
  conn_user : string;
  conn_password : string
}.

(** The attributes of a [Client] instance. *)
Record Client : Type := {
  _host : string;
  _port : string;
  _user : string;
  _password : string;
  _client : ClickHouseClient;
  backup_target : target_value;
  backup_dir : option string;
  _disk : option string;
  _s3_endpoint : option string;
  _s3_access_key_id : option string;
  _s3_secret_access_key : option string
}.

(** ** Effects *)

(** What the client asks of the driver, oldest first. *)
Inductive event : Type :=
| Connect (host port user password : string)
| Execute (query : string).

Definition world : Type := list event.

(** A computation reads the trace, extends it, and returns a value or
    raises; the trace survives an exception. *)
Definition M (A : Type) : Type := world -> (exn + A) * world.

Definition ret {A : Type} (a : A) : M A := fun w => (inr a, w).

Definition raise {A : Type} (e : exn) : M A := fun w => (inl e, w).

Definition bind {A B : Type} (m : M A) (k : A -> M B) : M B :=
  fun w =>
    match m w with
    | (inl e, w') => (inl e, w')
    | (inr a, w') => k a w'
    end.

Definition lift {A : Type} (r : exn + A) : M A :=
  match r with
  | inl e => raise e
  | inr a => ret a
  end.

(** What a caller observes of a run apart from the value returned: the
    exception, if one was raised, and the trace. *)
Definition outcome {A : Type} (r : (exn + A) * world) : option exn * world :=
  match r with
  | (inl e, w) => (Some e, w)
  | (inr _, w) => (None, w)
  end.

Declare Scope py_scope.
Delimit Scope py_scope with py.
Notation "x <- m ;; k" := (bind m (fun x => k))
  (at level 61, m at next level, right associativity) : py_scope.
Notation "m ;; k" := (bind m (fun _ => k))
  (at level 61, right associativity) : py_scope.
Open Scope py_scope.

(** ** Concrete collaborators

    A stub session and filesystem, and three configured clients, to run the
    model on concrete calls. *)
Definition stub_rows : Type := list (list string).

Definition stub_session (w : world) (query : string) : exn + stub_rows :=
  inr [[query]].

Definition stub_isdir (p : string) : bool := p =? "/backups".

Definition stub_conn : ClickHouseClient :=
  {| conn_host := "localhost"; conn_port := "9000";
     conn_user := "default"; conn_password := EmptyString |}.

Definition stub_client (target : target_value)
    (dir disk endpoint key secret : option string) : Client :=
  {| _host := "localhost"; _port := "9000"; _user := "default";
     _password := EmptyString; _client := stub_conn;
     backup_target := target; backup_dir := dir; _disk := disk;
     _s3_endpoint := endpoint; _s3_access_key_id := key;
     _s3_secret_access_key := secret |}.

Definition file_client : Client :=
  stub_client (Member FILE) (Some "/backups") None None None None.

Definition disk_client : Client :=
  stub_client (Member DISK) None (Some "backup_disk") None None None.

Definition s3_client : Client :=
  stub_client (Member S3) None None (Some "https://s3.example.com/bucket")
              (Some "AK") (Some "SK").

Section ClientModel.

(** Rows returned by the driver. *)
Variable Rows : Type.

(** [session.execute(statement)]: the rows, or the exception the driver
    raises, as a function of what was sent before. *)
Variable session_execute : world -> string -> exn + Rows.

(** [os.path.isdir]. *)
Variable isdir : string -> bool.

(** [self._client.execute(query)]. *)
Definition execute (query : string) : M Rows :=
  fun w => (session_execute w query, (w ++ [Execute query])%list).

(** [Client._connect]. *)
Definition _connect (host port user password : string) : M ClickHouseClient :=
  fun w =>
    (inr {| conn_host := host; conn_port := port;
            conn_user := user; conn_password := password |},
     (w ++ [Connect host port user password])%list).

(** [Client.__init__]. *)
Definition __init__ (host port user password : string)
    (backup_target : target_value)
    (backup_dir disk s3_endpoint s3_access_key_id s3_secret_access_key
       : option string)
  : M Client :=
  (match backup_target with
   | Member FILE =>
       if negb (truthy backup_dir) then
         raise (ValueError
                  "backup_dir must be provided when using File backup target")
       else if negb (isdir (fstr backup_dir)) then
         raise (FileNotFoundError
                  ("backup_dir " ++ fstr backup_dir ++ " does not exist!"))
       else ret tt
   | Member DISK =>
       if negb (truthy disk) then
         raise (ValueError
                  "disk must be provided when using Disk backup target")
       else ret tt
   | Member S3 =>
       if negb (truthy s3_endpoint) then
         raise (ValueError
                  "s3_endpoint must be provided when using S3 backup target")
       else if negb (truthy s3_access_key_id) then
         raise (ValueError
                  "s3_access_key_id must be provided when using S3 backup target")
       else if negb (truthy s3_secret_access_key) then
         raise (ValueError
                  "s3_secret_access_key must be provided when using S3 backup target")
       else ret tt
   | NotMember _ => ret tt
   end) ;;
  client <- _connect host port user password ;;
  ret {| _host := host;
         _port := port;
         _user := user;
         _password := password;
         _client := client;
         backup_target := backup_target;
         backup_dir := backup_dir;
         _disk := disk;
         _s3_endpoint := s3_endpoint;
         _s3_access_key_id := s3_access_key_id;
         _s3_secret_access_key := s3_secret_access_key |}.

(** [Client._get_backup_path]. *)
Definition _get_backup_path (self : Client) (file_path : string)
  : exn + string :=
  match backup_target self with
  | Member FILE =>
      inr ("File('" ++ fstr (backup_dir self) ++ "/" ++ file_path ++ "')")
  | Member DISK =>
      inr ("Disk('" ++ fstr (_disk self) ++ "', '" ++ file_path ++ "')")
  | Member S3 =>
      inr ("S3('" ++ fstr (_s3_endpoint self) ++ "/" ++ file_path ++ "', "
           ++ "'" ++ fstr (_s3_access_key_id self) ++ "', '"
           ++ fstr (_s3_secret_access_key self) ++ "')")
  | NotMember shown =>
      inl (ValueError ("Invalid backup target: " ++ shown))
  end.

(** [Client._backup_command]. *)
Definition _backup_command (self : Client) (backup : Backup)
    (is_backup : bool)
    (table dictionary database temporary_table view : option string)
    (ignored_databases : option (list string))
    (base_backup : option base_backup_value)
  : M Rows :=
  let ignored_databases :=
    list_or ignored_databases
            ["system"; "INFORMATION_SCHEMA"; "information_schema"] in
  let query := if is_backup then "BACKUP " else "RESTORE " in
  query <-
    (if truthy table then
       ret (query ++ "TABLE " ++ fstr table ++ " ")
     else if truthy dictionary then
       ret (query ++ "DICTIONARY " ++ fstr dictionary ++ " ")
     else if truthy database then
       ret (query ++ "DATABASE " ++ fstr database ++ " ")
     else if truthy temporary_table then
       ret (query ++ "TEMPORARY TABLE " ++ fstr temporary_table ++ " ")
     else if truthy view then
       ret (query ++ "VIEW " ++ fstr view ++ " ")
     else if Nat.eqb (List.length ignored_databases) 0 then
       raise (ValueError
                "ignored_databases must contain at least one database e.g. system.")
     else
       ret (query ++ "ALL EXCEPT DATABASES "
              ++ join ", " ignored_databases ++ " ")) ;;
  dest <- lift (_get_backup_path self (path backup)) ;;
  let query :=
    query ++ (if is_backup then "TO" else "FROM") ++ " " ++ dest ++ " " in
  query <-
    (if base_truthy base_backup then
       base <- lift (base_path base_backup) ;;
       base_dest <- lift (_get_backup_path self base) ;;
       ret (query ++ "SETTINGS base_backup = " ++ base_dest ++ " ")
     else ret query) ;;
  result <- execute query ;;
  ret result.

(** [Client.backup]. *)
Definition backup (self : Client) (backup : Backup)
    (table dictionary database temporary_table view : option string)
    (ignored_databases : option (list string))
    (base_backup : option base_backup_value)
  : M Rows :=
  _backup_command self backup true table dictionary database
                  temporary_table view ignored_databases base_backup.

(** [Client.restore]. *)
Definition restore (self : Client) (backup : Backup)
    (table dictionary database temporary_table view : option string)
    (ignored_databases : option (list string))
    (base_backup : option base_backup_value)
  : M Rows :=
  _backup_command self backup false table dictionary database
                  temporary_table view ignored_databases base_backup.

(** [Client.get_backup_status]. *)
Definition get_backup_status (self : Client) : M Rows :=
  execute "SELECT * FROM `system`.backups".

(** ** The statement, as the specification words it *)

(** [BACKUP] for a backup, [RESTORE] for a restore. *)
Definition spec_keyword (is_backup : bool) : string :=
  if is_backup then "BACKUP " else "RESTORE ".

(** [TO] for a backup, [FROM] for a restore. *)
Definition spec_direction (is_backup : bool) : string :=
  if is_backup then "TO " else "FROM ".

(** The five single-object parameters with their keywords, in priority
    order. *)
Definition spec_candidates
    (table dictionary database temporary_table view : option string)
  : list (string * option string) :=
  [("TABLE", table); ("DICTIONARY", dictionary); ("DATABASE", database);
   ("TEMPORARY TABLE", temporary_table); ("VIEW", view)].

(** The first candidate that is given and not empty. *)
Fixpoint first_given (cs : list (string * option string))
  : option (string * string) :=
  match cs with
  | [] => None
  | (kw, None) :: rest => first_given rest
  | (kw, Some EmptyString) :: rest => first_given rest
  | (kw, Some name) :: rest => Some (kw, name)
  end.

(** The one object clause: that of the first given parameter, or the
    [ALL EXCEPT DATABASES] clause over the ignored list in force. *)
Definition spec_object_clause
    (table dictionary database temporary_table view : option string)
    (ignored : list string) : string :=
  match first_given
          (spec_candidates table dictionary database temporary_table view) with
  | Some (kw, name) => kw ++ " " ++ name ++ " "
  | None => "ALL EXCEPT DATABASES " ++ join ", " ignored ++ " "
  end.

(** The ignored list when none is supplied. *)
Definition default_ignored : list string :=
  ["system"; "INFORMATION_SCHEMA"; "information_schema"].

(** What follows the destination clause: nothing without a base backup,
    else the [SETTINGS base_backup] clause over the base backup's path. *)
Definition settings_clause (self : Client) (base : option base_backup_value)
  : exn + string :=
  if base_truthy base then
    match base_path base with
    | inl e => inl e
    | inr p =>
        match _get_backup_path self p with
        | inl e => inl e
        | inr d => inr ("SETTINGS base_backup = " ++ d ++ " ")
        end
    end
  else inr EmptyString.

(** What the constructor requires of the parameters, by target: lines
    50-67 let a construction through exactly when this holds. *)
Definition selected_parameters_given (target : target_value)
    (dir disk endpoint key secret : option string) : bool :=
  match target with
  | Member FILE => truthy dir && isdir (fstr dir)
  | Member DISK => truthy disk
  | Member S3 => truthy endpoint && truthy key && truthy secret
  | NotMember _ => true
  end.

(** Two clients agree on the target and on the attributes that
    [_get_backup_path] reads for that target. *)
Definition same_destination_config (a b : Client) : Prop :=
  backup_target a = backup_target b /\
  match backup_target a with
  | Member FILE => backup_dir a = backup_dir b
  | Member DISK => _disk a = _disk b
  | Member S3 =>
      _s3_endpoint a = _s3_endpoint b /\
      _s3_access_key_id a = _s3_access_key_id b /\
      _s3_secret_access_key a = _s3_secret_access_key b
  | NotMember _ => True
  end.

(** A base backup that has a [.path] when it is truthy: [None], a
    [FullBackup], or the empty [str]. *)
Definition base_has_path (base : option base_backup_value) : bool :=
  match base with
  | Some (BaseStr (String _ _)) => false
  | _ => true
  end.

(** * Properties *)

(** ** Strings and Python values *)

Lemma append_assoc (a b c : string) : (a ++ b) ++ c = a ++ b ++ c.
Proof.
  induction a as [| ch a IH]; simpl; [reflexivity | now rewrite IH].
Qed.

Lemma append_empty_r (a : string) : a ++ EmptyString = a.
Proof.
  induction a as [| ch a IH]; simpl; [reflexivity | now rewrite IH].
Qed.

(** [xs or default] is never empty when the default is not: the test
    [len(ignored_databases) == 0] that follows it cannot succeed. *)
Lemma list_or_nonempty (xs : option (list string)) (d : list string) :
  d <> [] -> Nat.eqb (List.length (list_or xs d)) 0 = false.
Proof.
  intros Hd. destruct xs as [[| x l] |]; simpl; try reflexivity;
    destruct d; simpl; congruence.
Qed.

(** The chain of [if]/[elif] of the source picks the first given
    parameter. *)
Lemma first_given_chain
    (table dictionary database temporary_table view : option string)
    (ignored : list string) :
  spec_object_clause table dictionary database temporary_table view ignored =
  if truthy table then "TABLE " ++ fstr table ++ " "
  else if truthy dictionary then "DICTIONARY " ++ fstr dictionary ++ " "
  else if truthy database then "DATABASE " ++ fstr database ++ " "
  else if truthy temporary_table then
    "TEMPORARY TABLE " ++ fstr temporary_table ++ " "
  else if truthy view then "VIEW " ++ fstr view ++ " "
  else "ALL EXCEPT DATABASES " ++ join ", " ignored ++ " ".
Proof.
  unfold spec_object_clause, spec_candidates.
  destruct table as [[| ? ?] |]; simpl; try reflexivity;
    destruct dictionary as [[| ? ?] |]; simpl; try reflexivity;
    destruct database as [[| ? ?] |]; simpl; try reflexivity;
    destruct temporary_table as [[| ? ?] |]; simpl; try reflexivity;
    destruct view as [[| ? ?] |]; simpl; reflexivity.
Qed.

(** ** What a call of [_backup_command] does

    The call fails with the error of the destination clause or of the base
    backup's clause and submits nothing, or it submits one statement:
    keyword, object clause, direction, destination clause, settings. *)
Lemma _backup_command_run (self : Client) (b : Backup) (is_backup : bool)
    (table dictionary database temporary_table view : option string)
    (ignored : option (list string)) (base : option base_backup_value)
    (w : world) :
  _backup_command self b is_backup table dictionary database temporary_table
                  view ignored base w =
  match _get_backup_path self (path b) with
  | inl e => (inl e, w)
  | inr dest =>
      match settings_clause self base with
      | inl e => (inl e, w)
      | inr settings =>
          let q := spec_keyword is_backup
                   ++ spec_object_clause table dictionary database
                        temporary_table view (list_or ignored default_ignored)
                   ++ spec_direction is_backup ++ dest ++ " " ++ settings in
          (session_execute w q, (w ++ [Execute q])%list)
      end
  end.
Proof.
  unfold _backup_command, spec_keyword, default_ignored.
  set (kw := if is_backup then "BACKUP " else "RESTORE ").
  set (ign := list_or ignored _).
  assert (Hobj :
    (if truthy table then ret (kw ++ "TABLE " ++ fstr table ++ " ")
     else if truthy dictionary then
       ret (kw ++ "DICTIONARY " ++ fstr dictionary ++ " ")
     else if truthy database then
       ret (kw ++ "DATABASE " ++ fstr database ++ " ")
     else if truthy temporary_table then
       ret (kw ++ "TEMPORARY TABLE " ++ fstr temporary_table ++ " ")
     else if truthy view then ret (kw ++ "VIEW " ++ fstr view ++ " ")
     else if Nat.eqb (List.length ign) 0 then
       raise (ValueError
                "ignored_databases must contain at least one database e.g. system.")
     else ret (kw ++ "ALL EXCEPT DATABASES " ++ join ", " ign ++ " "))
    = ret (kw ++ spec_object_clause table dictionary database
                   temporary_table view ign)).
  { rewrite first_given_chain.
    unfold ign; rewrite list_or_nonempty by discriminate.
    repeat match goal with |- context [if ?c then _ else _] =>
                             destruct c end; reflexivity. }
  rewrite Hobj. clear Hobj.
  unfold bind at 1. unfold ret at 1.
  unfold bind at 1, lift at 1.
  destruct (_get_backup_path self (path b)) as [e | dest];
    [reflexivity |].
  unfold ret at 1. cbv beta iota.
  unfold settings_clause.
  assert (Hq : forall st,
    (kw ++ spec_object_clause table dictionary database temporary_table
             view ign
        ++ spec_direction is_backup ++ dest ++ " " ++ st)
    = ((kw ++ spec_object_clause table dictionary database temporary_table
                view ign)
         ++ (if is_backup then "TO" else "FROM") ++ " " ++ dest ++ " ") ++ st).
  { intros st. rewrite !append_assoc. do 2 f_equal.
    destruct is_backup; reflexivity. }
  destruct (base_truthy base).
  - unfold bind at 1. unfold bind at 1, lift at 1.
    destruct (base_path base) as [e | p]; [reflexivity |].
    unfold ret at 1. cbv beta iota.
    unfold bind at 1, lift at 1.
    destruct (_get_backup_path self p) as [e | d]; [reflexivity |].
    unfold ret at 1. cbv beta iota. unfold ret at 1.
    unfold bind, execute, ret. cbv zeta. rewrite Hq.
    destruct (session_execute w _); reflexivity.
  - unfold bind, execute, ret. cbv zeta.
    rewrite Hq, append_empty_r.
    destruct (session_execute w _); reflexivity.
Qed.

Ltac string_normal :=
  rewrite ?append_assoc, ?append_empty_r; simpl; rewrite ?append_assoc;
  reflexivity.

(** An explicit empty ignored list is replaced by the default on the first
    line of [_backup_command], like a missing one: the two calls are the
    same call. *)
Lemma empty_ignored_same_as_default (self : Client) (b : Backup)
    (is_backup : bool)
    (table dictionary database temporary_table view : option string)
    (base : option base_backup_value) (w : world) :
  _backup_command self b is_backup table dictionary database temporary_table
                  view (Some []) base w =
  _backup_command self b is_backup table dictionary database temporary_table
                  view None base w.
Proof. rewrite !_backup_command_run. reflexivity. Qed.

(** No call of [_backup_command] raises the error of the guard on the
    length of the ignored list. *)
Lemma ignored_guard_never_raises (self : Client) (b : Backup)
    (is_backup : bool)
    (table dictionary database temporary_table view : option string)
    (ignored : option (list string)) (base : option base_backup_value)
    (w : world) :
  fst (_backup_command self b is_backup table dictionary database
                       temporary_table view ignored base w) <>
  inl (ValueError
         "ignored_databases must contain at least one database e.g. system.")
  \/ exists q, snd (_backup_command self b is_backup table dictionary database
                       temporary_table view ignored base w)
               = (w ++ [Execute q])%list.
Proof.
  rewrite _backup_command_run.
  destruct (_get_backup_path self (path b)) as [e | dest] eqn:Hd.
  - left. simpl. unfold _get_backup_path in Hd.
    destruct (backup_target self) as [[| |] | shown]; try discriminate.
    injection Hd as <-. intros H. injection H as H. discriminate H.
  - destruct (settings_clause self base) as [e | st] eqn:Hs.
    + left. simpl. unfold settings_clause, base_path in Hs.
      destruct (base_truthy base); [| discriminate].
      destruct base as [[fb | str] |]; try (injection Hs as <-; discriminate).
      unfold _get_backup_path in Hd, Hs.
      destruct (backup_target self) as [[| |] | shown]; discriminate.
    + right. eexists. reflexivity.
Qed.

(** C2. Every backup or restore call appends exactly one object clause,
    chosen in the order table, dictionary, database, temporary_table, view,
    and the [ALL EXCEPT DATABASES] clause when none is given: the call
    either submits one statement, which is the keyword, that clause, the
    direction, the destination clause, a blank and the settings clause, or
    fails with the error of a destination clause and submits nothing.
    Several given parameters raise no error: the first non-empty one
    decides. *)
Theorem object_clause_by_priority (self : Client) (b : Backup)
    (is_backup : bool)
    (table dictionary database temporary_table view : option string)
    (ignored : option (list string)) (base : option base_backup_value)
    (w : world) :
  let clause :=
    spec_object_clause table dictionary database temporary_table view
                       (list_or ignored default_ignored) in
  ((exists dest settings : string,
       _get_backup_path self (path b) = inr dest
       /\ settings_clause self base = inr settings
       /\ let q := spec_keyword is_backup ++ clause
                   ++ spec_direction is_backup ++ dest ++ " " ++ settings in
          _backup_command self b is_backup table dictionary database
                          temporary_table view ignored base w
          = (session_execute w q, (w ++ [Execute q])%list))
   \/
   (exists e : exn,
       (_get_backup_path self (path b) = inl e
        \/ settings_clause self base = inl e)
       /\ _backup_command self b is_backup table dictionary database
                          temporary_table view ignored base w
          = (inl e, w)))
  /\ (truthy table = true -> clause = "TABLE " ++ fstr table ++ " ")
  /\ (truthy table = false -> truthy dictionary = true ->
      clause = "DICTIONARY " ++ fstr dictionary ++ " ")
  /\ (truthy table = false -> truthy dictionary = false ->
      truthy database = true ->
      clause = "DATABASE " ++ fstr database ++ " ")
  /\ (truthy table = false -> truthy dictionary = false ->
      truthy database = false -> truthy temporary_table = true ->
      clause = "TEMPORARY TABLE " ++ fstr temporary_table ++ " ")
  /\ (truthy table = false -> truthy dictionary = false ->
      truthy database = false -> truthy temporary_table = false ->
      truthy view = true ->
      clause = "VIEW " ++ fstr view ++ " ")
  /\ (truthy table = false -> truthy dictionary = false ->
      truthy database = false -> truthy temporary_table = false ->
      truthy view = false ->
      clause = "ALL EXCEPT DATABASES "
               ++ join ", " (list_or ignored default_ignored) ++ " ").
Proof.
  intros clause. split.
  - rewrite _backup_command_run.
    destruct (_get_backup_path self (path b)) as [e | dest].
    + right. exists e. split; [now left | reflexivity].
    + destruct (settings_clause self base) as [e | st].
      * right. exists e. split; [now right | reflexivity].
      * left. exists dest, st. repeat split.
  - unfold clause. rewrite first_given_chain.
    repeat split; intros; 
      repeat match goal with H : truthy _ = _ |- _ => rewrite H; clear H end;
      reflexivity.
Qed.

(** C5. A backup call with no single-object parameter and no ignored list
    uses the default list [system, INFORMATION_SCHEMA, information_schema]:
    the statement submitted begins
    [BACKUP ALL EXCEPT DATABASES system, INFORMATION_SCHEMA, information_schema TO]
    followed by the destination clause of the backup's path. *)
Theorem backup_all_except_default (self : Client) (b : Backup)
    (table dictionary database temporary_table view : option string)
    (base : option base_backup_value) (w : world)
    (dest settings : string) :
  truthy table = false -> truthy dictionary = false ->
  truthy database = false -> truthy temporary_table = false ->
  truthy view = false ->
  _get_backup_path self (path b) = inr dest ->
  settings_clause self base = inr settings ->
  list_or None default_ignored
  = ["system"; "INFORMATION_SCHEMA"; "information_schema"]
  /\
  let q := "BACKUP ALL EXCEPT DATABASES system, INFORMATION_SCHEMA, information_schema TO "
           ++ dest ++ " " ++ settings in
  backup self b table dictionary database temporary_table view None base w
  = (session_execute w q, (w ++ [Execute q])%list).
Proof.
  intros Ht Hd Hdb Htt Hv Hdest Hset. split; [reflexivity |].
  unfold backup. rewrite _backup_command_run, Hdest, Hset.
  rewrite first_given_chain, Ht, Hd, Hdb, Htt, Hv.
  cbv zeta. reflexivity.
Qed.

(** C6. A backup call with a database, no table and no dictionary, and no
    base backup submits [BACKUP DATABASE <database> TO <destination clause>]
    and nothing after the destination clause but the blank that ends every
    clause: no [SETTINGS base_backup] suffix. *)
Theorem backup_database_no_settings (self : Client) (b : Backup)
    (table dictionary temporary_table view : option string) (db : string)
    (ignored : option (list string)) (w : world) (dest : string) :
  truthy table = false -> truthy dictionary = false ->
  str_truthy db = true ->
  _get_backup_path self (path b) = inr dest ->
  let q := "BACKUP DATABASE " ++ db ++ " TO " ++ dest ++ " " in
  backup self b table dictionary (Some db) temporary_table view ignored None w
  = (session_execute w q, (w ++ [Execute q])%list).
Proof.
  intros Ht Hd Hdb Hdest. unfold backup.
  rewrite _backup_command_run, Hdest. unfold settings_clause. simpl base_truthy.
  cbv iota zeta. rewrite first_given_chain, Ht, Hd. simpl truthy. rewrite Hdb.
  replace (spec_keyword true ++ ("DATABASE " ++ fstr (Some db) ++ " ")
             ++ spec_direction true ++ dest ++ " " ++ EmptyString)
    with ("BACKUP DATABASE " ++ db ++ " TO " ++ dest ++ " ")
    by (unfold spec_keyword, spec_direction, fstr; string_normal).
  reflexivity.
Qed.

(** C7, as the code has it. A restore call with a table and a base backup
    submits
    [RESTORE TABLE <table> FROM <dest> SETTINGS base_backup = <base_dest>]
    followed by one blank, both clauses built by [_get_backup_path]. *)
Theorem restore_table_with_base (self : Client) (b : Backup) (t : string)
    (dictionary database temporary_table view : option string)
    (ignored : option (list string)) (fb : FullBackup) (w : world)
    (dest base_dest : string) :
  str_truthy t = true ->
  _get_backup_path self (path b) = inr dest ->
  _get_backup_path self (path fb) = inr base_dest ->
  let q := "RESTORE TABLE " ++ t ++ " FROM " ++ dest
           ++ " SETTINGS base_backup = " ++ base_dest ++ " " in
  restore self b (Some t) dictionary database temporary_table view ignored
          (Some (BaseBackup fb)) w
  = (session_execute w q, (w ++ [Execute q])%list).
Proof.
  intros Ht Hdest Hbase. unfold restore.
  rewrite _backup_command_run, Hdest. unfold settings_clause.
  simpl base_truthy. simpl base_path. cbv iota. rewrite Hbase.
  rewrite first_given_chain. simpl truthy. rewrite Ht.
  replace (spec_keyword false ++ ("TABLE " ++ fstr (Some t) ++ " ")
             ++ spec_direction false ++ dest ++ " "
             ++ "SETTINGS base_backup = " ++ base_dest ++ " ")
    with ("RESTORE TABLE " ++ t ++ " FROM " ++ dest
          ++ " SETTINGS base_backup = " ++ base_dest ++ " ")
    by (unfold spec_keyword, spec_direction, fstr; string_normal).
  reflexivity.
Qed.

(** C10. On the same client and the same arguments, the statement of
    [backup] and the statement of [restore] are the same object clause and
    the same destination and settings, the first behind [BACKUP ] and
    [TO ], the second behind [RESTORE ] and [FROM ]. *)
Theorem backup_restore_differ_by_keywords (self : Client) (b : Backup)
    (table dictionary database temporary_table view : option string)
    (ignored : option (list string)) (base : option base_backup_value)
    (w : world) (dest settings : string) :
  _get_backup_path self (path b) = inr dest ->
  settings_clause self base = inr settings ->
  let object :=
    spec_object_clause table dictionary database temporary_table view
                       (list_or ignored default_ignored) in
  let rest := dest ++ " " ++ settings in
  let qb := "BACKUP " ++ object ++ "TO " ++ rest in
  let qr := "RESTORE " ++ object ++ "FROM " ++ rest in
  backup self b table dictionary database temporary_table view ignored base w
  = (session_execute w qb, (w ++ [Execute qb])%list)
  /\
  restore self b table dictionary database temporary_table view ignored base w
  = (session_execute w qr, (w ++ [Execute qr])%list).
Proof.
  intros Hdest Hset. unfold backup, restore.
  rewrite !_backup_command_run, Hdest, Hset. split; reflexivity.
Qed.

(** C8. With a target that is none of File, Disk, S3, the destination
    clause fails with [ValueError], and so does every backup or restore
    call, which leaves the trace as it found it: nothing is submitted. *)
Theorem invalid_target_fails (self : Client) (shown : string) :
  backup_target self = NotMember shown ->
  (forall file_path : string,
      _get_backup_path self file_path
      = inl (ValueError ("Invalid backup target: " ++ shown)))
  /\
  (forall (b : Backup) (is_backup : bool)
          (table dictionary database temporary_table view : option string)
          (ignored : option (list string)) (base : option base_backup_value)
          (w : world),
      _backup_command self b is_backup table dictionary database
                      temporary_table view ignored base w
      = (inl (ValueError ("Invalid backup target: " ++ shown)), w)).
Proof.
  intros Htarget.
  assert (Hpath : forall file_path,
    _get_backup_path self file_path
    = inl (ValueError ("Invalid backup target: " ++ shown))).
  { intros file_path. unfold _get_backup_path. now rewrite Htarget. }
  split; [exact Hpath |].
  intros. now rewrite _backup_command_run, Hpath.
Qed.

(** C9. [get_backup_status] submits the one fixed query over
    [system.backups] and returns what the session answers to it, rows or
    exception, as it is. *)
Theorem get_backup_status_passthrough (self : Client) (w : world) :
  get_backup_status self w
  = (session_execute w "SELECT * FROM `system`.backups",
     (w ++ [Execute "SELECT * FROM `system`.backups"])%list)
  /\
  (forall rows : Rows,
      session_execute w "SELECT * FROM `system`.backups" = inr rows ->
      fst (get_backup_status self w) = inr rows).
Proof.
  split; [reflexivity |]. intros rows Hrows. simpl. exact Hrows.
Qed.

(** ** The constructor *)

(** A construction that passes validation opens the connection and keeps
    the parameters as they were given. *)
Lemma init_runs (host port user password : string) (target : target_value)
    (dir disk endpoint key secret : option string) (w : world) :
  __init__ host port user password target dir disk endpoint key secret w
  = (inr {| _host := host; _port := port; _user := user;
            _password := password;
            _client := {| conn_host := host; conn_port := port;
                          conn_user := user; conn_password := password |};
            backup_target := target; backup_dir := dir; _disk := disk;
            _s3_endpoint := endpoint; _s3_access_key_id := key;
            _s3_secret_access_key := secret |},
     (w ++ [Connect host port user password])%list)
  \/ exists e,
      __init__ host port user password target dir disk endpoint key secret w
      = (inl e, w).
Proof.
  unfold __init__, bind, _connect, ret, raise.
  destruct target as [[| |] | shown];
    repeat match goal with
           | |- context [if negb ?c then _ else _] => destruct c; simpl
           end;
    solve [now left | right; eexists; reflexivity].
Qed.

(** C3. The constructor checks the parameters of the selected target
    before it connects: File without a directory, or with one that is not
    on the filesystem, Disk without a disk name, S3 without endpoint,
    access key or secret key all fail with [ValueError] (or
    [FileNotFoundError]) on the trace left as it was, so no connection is
    opened; and what the construction does, failure and trace, is the same
    whatever the parameters of the other targets are. *)
Theorem init_validates_selected_target (host port user password : string)
    (dir disk endpoint key secret : option string) (w : world) :
  (truthy dir = false ->
   __init__ host port user password (Member FILE) dir disk endpoint key
            secret w
   = (inl (ValueError
             "backup_dir must be provided when using File backup target"), w))
  /\ (truthy dir = true -> isdir (fstr dir) = false ->
      __init__ host port user password (Member FILE) dir disk endpoint key
               secret w
      = (inl (FileNotFoundError
                ("backup_dir " ++ fstr dir ++ " does not exist!")), w))
  /\ (truthy disk = false ->
      __init__ host port user password (Member DISK) dir disk endpoint key
               secret w
      = (inl (ValueError
                "disk must be provided when using Disk backup target"), w))
  /\ (truthy endpoint = false \/ truthy key = false \/ truthy secret = false ->
      exists msg : string,
        __init__ host port user password (Member S3) dir disk endpoint key
                 secret w
        = (inl (ValueError msg), w))
  /\ (forall disk' endpoint' key' secret' : option string,
        outcome (__init__ host port user password (Member FILE) dir disk
                          endpoint key secret w)
        = outcome (__init__ host port user password (Member FILE) dir disk'
                            endpoint' key' secret' w))
  /\ (forall dir' endpoint' key' secret' : option string,
        outcome (__init__ host port user password (Member DISK) dir disk
                          endpoint key secret w)
        = outcome (__init__ host port user password (Member DISK) dir' disk
                            endpoint' key' secret' w))
  /\ (forall dir' disk' : option string,
        outcome (__init__ host port user password (Member S3) dir disk
                          endpoint key secret w)
        = outcome (__init__ host port user password (Member S3) dir' disk'
                            endpoint key secret w)).
Proof.
  unfold __init__, bind, _connect, ret, raise.
  repeat split.
  - intros ->. reflexivity.
  - intros -> ->. reflexivity.
  - intros ->. reflexivity.
  - intros [H | [H | H]]; rewrite H; simpl;
      repeat match goal with
             | |- context [if negb ?c then _ else _] => destruct c; simpl
             end; eexists; reflexivity.
  - intros. destruct (truthy dir); simpl; [| reflexivity].
    destruct (isdir (fstr dir)); reflexivity.
  - intros. destruct (truthy disk); reflexivity.
  - intros. destruct (truthy endpoint); simpl; [| reflexivity].
    destruct (truthy key); simpl; [| reflexivity].
    destruct (truthy secret); reflexivity.
Qed.

(** C4. On a client that was constructed, the destination clause of a path
    is [File('<backup_dir>/<path>')], [Disk('<disk_name>', '<path>')] or
    [S3('<endpoint>/<path>', '<access_key>', '<secret_key>')] by the
    target, the configured values and the path written in as they are. *)
Theorem destination_clause_of_configured_client
    (host port user password : string) (target : BackupTarget)
    (dir disk endpoint key secret : option string) (w w' : world)
    (self : Client) (file_path : string) :
  __init__ host port user password (Member target) dir disk endpoint key
           secret w
  = (inr self, w') ->
  match target with
  | FILE =>
      exists d : string,
        dir = Some d /\
        _get_backup_path self file_path
        = inr ("File('" ++ d ++ "/" ++ file_path ++ "')")
  | DISK =>
      exists n : string,
        disk = Some n /\
        _get_backup_path self file_path
        = inr ("Disk('" ++ n ++ "', '" ++ file_path ++ "')")
  | S3 =>
      exists ep ak sk : string,
        endpoint = Some ep /\ key = Some ak /\ secret = Some sk /\
        _get_backup_path self file_path
        = inr ("S3('" ++ ep ++ "/" ++ file_path ++ "', '" ++ ak ++ "', '"
               ++ sk ++ "')")
  end.
Proof.
  intros Hinit. unfold __init__, bind, _connect, ret, raise in Hinit.
  destruct target.
  - destruct dir as [d |]; simpl in Hinit; [| discriminate].
    destruct (str_truthy d); simpl in Hinit; [| discriminate].
    destruct (isdir d); simpl in Hinit; [| discriminate].
    injection Hinit as <- _. exists d. split; reflexivity.
  - destruct disk as [n |]; simpl in Hinit; [| discriminate].
    destruct (str_truthy n); simpl in Hinit; [| discriminate].
    injection Hinit as <- _. exists n. split; reflexivity.
  - destruct endpoint as [ep |]; simpl in Hinit; [| discriminate].
    destruct (str_truthy ep); simpl in Hinit; [| discriminate].
    destruct key as [ak |]; simpl in Hinit; [| discriminate].
    destruct (str_truthy ak); simpl in Hinit; [| discriminate].
    destruct secret as [sk |]; simpl in Hinit; [| discriminate].
    destruct (str_truthy sk); simpl in Hinit; [| discriminate].
    injection Hinit as <- _. exists ep, ak, sk.
    repeat split.
Qed.

(** ** More on the constructor *)

(** X1. The constructor succeeds exactly when the parameters of the
    selected target are given (and, for File, the directory is there); a
    target outside the enumeration is let through unchecked. On success it
    opens one connection, with the credentials it was given, and the client
    holds every parameter as it was passed. *)
Theorem init_succeeds_iff_selected_given (host port user password : string)
    (target : target_value)
    (dir disk endpoint key secret : option string) (w : world) :
  (selected_parameters_given target dir disk endpoint key secret = true ->
   exists self : Client,
     __init__ host port user password target dir disk endpoint key secret w
     = (inr self, (w ++ [Connect host port user password])%list)
     /\ _host self = host /\ _port self = port
     /\ _user self = user /\ _password self = password
     /\ _client self = {| conn_host := host; conn_port := port;
                         conn_user := user; conn_password := password |}
     /\ backup_target self = target /\ backup_dir self = dir
     /\ _disk self = disk /\ _s3_endpoint self = endpoint
     /\ _s3_access_key_id self = key /\ _s3_secret_access_key self = secret)
  /\
  (forall (self : Client) (w' : world),
      __init__ host port user password target dir disk endpoint key secret w
      = (inr self, w') ->
      selected_parameters_given target dir disk endpoint key secret = true).
Proof.
  unfold selected_parameters_given, __init__, bind, _connect, ret, raise.
  split.
  - intros Hok. eexists.
    destruct target as [[| |] | shown].
    + destruct (truthy dir); [| discriminate]. simpl in Hok. rewrite Hok.
      simpl. repeat split.
    + rewrite Hok. simpl. repeat split.
    + destruct (truthy endpoint); [| discriminate].
      destruct (truthy key); [| discriminate]. simpl in Hok. rewrite Hok.
      simpl. repeat split.
    + simpl. repeat split.
  - intros self w'.
    destruct target as [[| |] | shown]; try reflexivity.
    + destruct (truthy dir); simpl; [| discriminate].
      destruct (isdir (fstr dir)); simpl; [reflexivity | discriminate].
    + destruct (truthy disk); simpl; [reflexivity | discriminate].
    + destruct (truthy endpoint); simpl; [| discriminate].
      destruct (truthy key); simpl; [| discriminate].
      destruct (truthy secret); simpl; [reflexivity | discriminate].
Qed.

(** X2. Whatever it is given, the constructor ends in one of two ways: it
    returns a client and has added the one [Connect] event to the trace, or
    it raises [ValueError] or [FileNotFoundError] and the trace is as it
    was. It connects if and only if it succeeds, and submits no statement. *)
Theorem init_connects_iff_succeeds (host port user password : string)
    (target : target_value)
    (dir disk endpoint key secret : option string) (w : world) :
  let r := __init__ host port user password target dir disk endpoint key
                    secret w in
  (exists self : Client,
      fst r = inr self
      /\ snd r = (w ++ [Connect host port user password])%list)
  \/
  (exists msg : string,
      (fst r = inl (ValueError msg) \/ fst r = inl (FileNotFoundError msg))
      /\ snd r = w).
Proof.
  unfold __init__, bind, _connect, ret, raise.
  destruct target as [[| |] | shown]; simpl.
  - destruct (truthy dir); simpl;
      [| right; eexists; split; [left; reflexivity | reflexivity]].
    destruct (isdir (fstr dir)); simpl;
      [left; eexists; split; reflexivity
      | right; eexists; split; [right; reflexivity | reflexivity]].
  - destruct (truthy disk); simpl;
      [left; eexists; split; reflexivity
      | right; eexists; split; [left; reflexivity | reflexivity]].
  - destruct (truthy endpoint); simpl;
      [| right; eexists; split; [left; reflexivity | reflexivity]].
    destruct (truthy key); simpl;
      [| right; eexists; split; [left; reflexivity | reflexivity]].
    destruct (truthy secret); simpl;
      [left; eexists; split; reflexivity
      | right; eexists; split; [left; reflexivity | reflexivity]].
  - left; eexists; split; reflexivity.
Qed.

(** X3. For the S3 target the three parameters are checked in the order
    endpoint, access key, secret key, and the error names the first one
    that is missing, whatever the later ones are. *)
Theorem init_s3_reports_first_missing (host port user password : string)
    (dir disk endpoint key secret : option string) (w : world) :
  (truthy endpoint = false ->
   __init__ host port user password (Member S3) dir disk endpoint key
            secret w
   = (inl (ValueError
             "s3_endpoint must be provided when using S3 backup target"), w))
  /\ (truthy endpoint = true -> truthy key = false ->
      __init__ host port user password (Member S3) dir disk endpoint key
               secret w
      = (inl (ValueError
                "s3_access_key_id must be provided when using S3 backup target"),
         w))
  /\ (truthy endpoint = true -> truthy key = true ->
      truthy secret = false ->
      __init__ host port user password (Member S3) dir disk endpoint key
               secret w
      = (inl (ValueError
                "s3_secret_access_key must be provided when using S3 backup target"),
         w)).
Proof.
  unfold __init__, bind, _connect, ret, raise.
  repeat split.
  - intros ->. reflexivity.
  - intros -> ->. reflexivity.
  - intros -> -> ->. reflexivity.
Qed.

(** X4. A target outside the enumeration passes the constructor, which
    opens the connection, and then fails every backup or restore made with
    the client: the trace holds the [Connect] event and no statement. *)
Theorem unchecked_target_connects_then_fails
    (host port user password shown : string)
    (dir disk endpoint key secret : option string)
    (b : Backup) (is_backup : bool)
    (table dictionary database temporary_table view : option string)
    (ignored : option (list string)) (base : option base_backup_value)
    (w : world) :
  (self <- __init__ host port user password (NotMember shown) dir disk
                    endpoint key secret ;;
   _backup_command self b is_backup table dictionary database
                   temporary_table view ignored base) w
  = (inl (ValueError ("Invalid backup target: " ++ shown)),
     (w ++ [Connect host port user password])%list).
Proof.
  unfold bind at 1. unfold __init__, bind, _connect, ret. cbv beta iota.
  rewrite _backup_command_run. reflexivity.
Qed.

(** ** More on the destination clause *)

Lemma append_inv_head (a b c : string) : a ++ b = a ++ c -> b = c.
Proof.
  induction a as [| ch a IH]; simpl; intros H; [exact H |].
  injection H as H. now apply IH.
Qed.

Lemma length_append (a b : string) :
  String.length (a ++ b) = String.length a + String.length b.
Proof.
  induction a as [| ch a IH]; simpl; [reflexivity | now rewrite IH].
Qed.

Lemma append_inv_tail (a b s : string) : a ++ s = b ++ s -> a = b.
Proof.
  revert b. induction a as [| ch a IH]; intros [| ch' b] H.
  - reflexivity.
  - apply (f_equal String.length) in H.
    simpl in H. rewrite length_append in H. lia.
  - apply (f_equal String.length) in H.
    simpl in H. rewrite length_append in H. lia.
  - simpl in H. injection H as -> H. f_equal. now apply IH.
Qed.

(** The destination clause is built exactly for the members of the
    enumeration. *)
Lemma _get_backup_path_member (self : Client) (t : BackupTarget)
    (file_path : string) :
  backup_target self = Member t ->
  exists dest, _get_backup_path self file_path = inr dest.
Proof.
  intros Ht. unfold _get_backup_path. rewrite Ht.
  destruct t; eexists; reflexivity.
Qed.

(** X5. On one client, two paths that give the same destination clause are
    the same path: distinct backups never share a destination. *)
Theorem destination_clause_injective (self : Client)
    (p1 p2 dest : string) :
  _get_backup_path self p1 = inr dest ->
  _get_backup_path self p2 = inr dest ->
  p1 = p2.
Proof.
  unfold _get_backup_path. intros H1 H2.
  destruct (backup_target self) as [[| |] | shown]; [| | | discriminate];
    rewrite <- H2 in H1; injection H1 as H1.
  - apply (append_inv_head (fstr (backup_dir self))) in H1.
    injection H1 as H1. now apply append_inv_tail in H1.
  - apply (append_inv_head (fstr (_disk self))) in H1.
    injection H1 as H1. now apply append_inv_tail in H1.
  - apply (append_inv_head (fstr (_s3_endpoint self))) in H1.
    injection H1 as H1. now apply append_inv_tail in H1.
Qed.

(** X6. The statement of a call reads, of the client, only the target and
    the attributes of that target: two clients that agree on them submit
    the same statement, whatever their host, credentials, driver handle and
    the attributes of the other targets, and a call that submits nothing
    raises the same exception on both. An S3 key never reaches the
    statement of a File or Disk client. What the driver answers is not
    compared: each client asks its own handle. *)
Theorem unselected_attributes_unused (a b : Client) (bk : Backup)
    (is_backup : bool)
    (table dictionary database temporary_table view : option string)
    (ignored : option (list string)) (base : option base_backup_value)
    (w : world) :
  same_destination_config a b ->
  let run_a := _backup_command a bk is_backup table dictionary database
                               temporary_table view ignored base w in
  let run_b := _backup_command b bk is_backup table dictionary database
                               temporary_table view ignored base w in
  snd run_a = snd run_b
  /\ (snd run_a = w -> fst run_a = fst run_b).
Proof.
  intros [Ht Hf].
  assert (Hpath : forall p, _get_backup_path a p = _get_backup_path b p).
  { intros p. unfold _get_backup_path. rewrite <- Ht.
    destruct (backup_target a) as [[| |] | shown]; try reflexivity.
    - now rewrite Hf.
    - now rewrite Hf.
    - destruct Hf as (-> & -> & ->). reflexivity. }
  assert (Hset : settings_clause a base = settings_clause b base).
  { unfold settings_clause.
    destruct (base_truthy base); [| reflexivity].
    destruct (base_path base) as [e | p]; [reflexivity |].
    now rewrite Hpath. }
  cbv zeta. rewrite !_backup_command_run, Hpath, Hset.
  destruct (_get_backup_path b (path bk)) as [e | dest];
    [split; reflexivity |].
  destruct (settings_clause b base) as [e | st]; split; reflexivity.
Qed.

(** ** More on the statement *)

(** The statement behind an [Execute] event that a call added. *)
Lemma submitted_statement (self : Client) (b : Backup) (is_backup : bool)
    (table dictionary database temporary_table view : option string)
    (ignored : option (list string)) (base : option base_backup_value)
    (w : world) (q : string) :
  snd (_backup_command self b is_backup table dictionary database
                       temporary_table view ignored base w)
  = (w ++ [Execute q])%list ->
  exists dest settings,
    _get_backup_path self (path b) = inr dest
    /\ settings_clause self base = inr settings
    /\ q = spec_keyword is_backup
           ++ spec_object_clause table dictionary database temporary_table
                view (list_or ignored default_ignored)
           ++ spec_direction is_backup ++ dest ++ " " ++ settings.
Proof.
  rewrite _backup_command_run.
  assert (Hno : w <> (w ++ [Execute q])%list).
  { intros H. apply (f_equal (@List.length event)) in H.
    rewrite List.length_app in H. simpl in H. lia. }
  destruct (_get_backup_path self (path b)) as [e | dest];
    [intros H; now apply Hno in H |].
  destruct (settings_clause self base) as [e | st];
    [intros H; now apply Hno in H |].
  cbv zeta. simpl snd. intros H. apply List.app_inv_head in H.
  injection H as H. exists dest, st. repeat split. now symmetry.
Qed.

(** X7. On a client whose target is File, Disk or S3, a call whose base
    backup is absent or is a backup object cannot fail before the driver: it
    submits one statement, and what it returns, rows or exception, is the
    driver's answer to that statement. *)
Theorem configured_client_submits_one_statement (self : Client)
    (t : BackupTarget) (b : Backup) (is_backup : bool)
    (table dictionary database temporary_table view : option string)
    (ignored : option (list string)) (base : option base_backup_value)
    (w : world) :
  backup_target self = Member t ->
  base_has_path base = true ->
  exists q : string,
    _backup_command self b is_backup table dictionary database
                    temporary_table view ignored base w
    = (session_execute w q, (w ++ [Execute q])%list).
Proof.
  intros Ht Hbase. rewrite _backup_command_run.
  destruct (_get_backup_path_member self t (path b) Ht) as [dest ->].
  unfold settings_clause.
  destruct base as [[fb | [| c s]] |]; simpl; try discriminate.
  - destruct (_get_backup_path_member self t (path fb) Ht) as [d ->].
    eexists. reflexivity.
  - eexists. reflexivity.
  - eexists. reflexivity.
Qed.

(** X8. A non-empty [str] passed as base backup, which the annotation of
    [restore] asks for, has no [.path]: on a client with a valid target the
    call raises [AttributeError] and submits nothing. The empty [str] is
    falsy and counts as no base backup. *)
Theorem str_base_backup_raises (self : Client) (t : BackupTarget)
    (b : Backup) (is_backup : bool)
    (table dictionary database temporary_table view : option string)
    (ignored : option (list string)) (w : world) :
  backup_target self = Member t ->
  (forall (c : Ascii.ascii) (s : string),
      _backup_command self b is_backup table dictionary database
                      temporary_table view ignored
                      (Some (BaseStr (String c s))) w
      = (inl (AttributeError "'str' object has no attribute 'path'"), w))
  /\
  _backup_command self b is_backup table dictionary database temporary_table
                  view ignored (Some (BaseStr EmptyString)) w
  = _backup_command self b is_backup table dictionary database
                    temporary_table view ignored None w.
Proof.
  intros Ht. split.
  - intros c s. rewrite _backup_command_run.
    destruct (_get_backup_path_member self t (path b) Ht) as [dest ->].
    reflexivity.
  - rewrite !_backup_command_run. reflexivity.
Qed.

(** The object clause looks at a parameter through its truth value and,
    when it is truthy, its text. *)
Lemma spec_object_clause_ext
    (t d db tt v t' d' db' tt' v' : option string) (ignored : list string) :
  truthy t = truthy t' -> (truthy t = true -> t = t') ->
  truthy d = truthy d' -> (truthy d = true -> d = d') ->
  truthy db = truthy db' -> (truthy db = true -> db = db') ->
  truthy tt = truthy tt' -> (truthy tt = true -> tt = tt') ->
  truthy v = truthy v' -> (truthy v = true -> v = v') ->
  spec_object_clause t d db tt v ignored
  = spec_object_clause t' d' db' tt' v' ignored.
Proof.
  intros Ht Et Hd Ed Hdb Edb Htt Ett Hv Ev.
  rewrite !first_given_chain, <- Ht, <- Hd, <- Hdb, <- Htt, <- Hv.
  destruct (truthy t); [now rewrite <- Et |].
  destruct (truthy d); [now rewrite <- Ed |].
  destruct (truthy db); [now rewrite <- Edb |].
  destruct (truthy tt); [now rewrite <- Ett |].
  destruct (truthy v); [now rewrite <- Ev |].
  reflexivity.
Qed.

(** X9. An empty string is a parameter that is not given: in each of the
    five positions the call with [""] is the call with [None]. *)
Theorem empty_name_is_not_given (self : Client) (b : Backup)
    (is_backup : bool)
    (table dictionary database temporary_table view : option string)
    (ignored : option (list string)) (base : option base_backup_value)
    (w : world) :
  let call := _backup_command self b is_backup in
  call (Some EmptyString) dictionary database temporary_table view ignored
       base w
  = call None dictionary database temporary_table view ignored base w
  /\ call table (Some EmptyString) database temporary_table view ignored
          base w
     = call table None database temporary_table view ignored base w
  /\ call table dictionary (Some EmptyString) temporary_table view ignored
          base w
     = call table dictionary None temporary_table view ignored base w
  /\ call table dictionary database (Some EmptyString) view ignored base w
     = call table dictionary database None view ignored base w
  /\ call table dictionary database temporary_table (Some EmptyString)
          ignored base w
     = call table dictionary database temporary_table None ignored base w.
Proof.
  cbv zeta. rewrite !_backup_command_run.
  repeat split;
    (erewrite spec_object_clause_ext;
     [reflexivity | try reflexivity; try discriminate ..]).
Qed.

(** X10. The first parameter that is given decides the whole call: the
    parameters after it in the order table, dictionary, database,
    temporary_table, view, and the ignored list, have no effect on what is
    submitted or returned. *)
Theorem first_given_makes_rest_unused (self : Client) (b : Backup)
    (is_backup : bool)
    (table dictionary database temporary_table view : option string)
    (dictionary' database' temporary_table' view' : option string)
    (ignored ignored' : option (list string))
    (base : option base_backup_value) (w : world) :
  let call := _backup_command self b is_backup in
  (truthy table = true ->
   call table dictionary database temporary_table view ignored base w
   = call table dictionary' database' temporary_table' view' ignored' base w)
  /\ (truthy dictionary = true ->
      call table dictionary database temporary_table view ignored base w
      = call table dictionary database' temporary_table' view' ignored'
             base w)
  /\ (truthy database = true ->
      call table dictionary database temporary_table view ignored base w
      = call table dictionary database temporary_table' view' ignored'
             base w)
  /\ (truthy temporary_table = true ->
      call table dictionary database temporary_table view ignored base w
      = call table dictionary database temporary_table view' ignored' base w)
  /\ (truthy view = true ->
      call table dictionary database temporary_table view ignored base w
      = call table dictionary database temporary_table view ignored' base w).
Proof.
  cbv zeta. rewrite !_backup_command_run, !first_given_chain.
  repeat split; intros ->;
    repeat match goal with
           | |- context [if truthy ?o then _ else _] => destruct (truthy o)
           end; reflexivity.
Qed.

(** X11. With no single-object parameter and an ignored list that has a
    first element, the statement names the databases of that list, in their
    order, separated by a comma and a blank; a list of one database has no
    separator. *)
Theorem explicit_ignored_list_is_joined (self : Client) (b : Backup)
    (is_backup : bool)
    (table dictionary database temporary_table view : option string)
    (x : string) (l : list string) (base : option base_backup_value)
    (w : world) (dest settings : string) :
  truthy table = false -> truthy dictionary = false ->
  truthy database = false -> truthy temporary_table = false ->
  truthy view = false ->
  _get_backup_path self (path b) = inr dest ->
  settings_clause self base = inr settings ->
  let q := spec_keyword is_backup ++ "ALL EXCEPT DATABASES "
           ++ fold_left (fun acc name => acc ++ ", " ++ name) l x
           ++ " " ++ spec_direction is_backup ++ dest ++ " " ++ settings in
  _backup_command self b is_backup table dictionary database temporary_table
                  view (Some (x :: l)) base w
  = (session_execute w q, (w ++ [Execute q])%list).
Proof.
  intros Ht Hd Hdb Htt Hv Hdest Hset.
  rewrite _backup_command_run, Hdest, Hset, first_given_chain.
  rewrite Ht, Hd, Hdb, Htt, Hv. cbv zeta. simpl list_or.
  assert (Hjoin : forall l x,
    join ", " (x :: l) = fold_left (fun acc name => acc ++ ", " ++ name) l x).
  { clear. unfold join.
    assert (Hhead : forall l a c,
      String.concat ", " ((a ++ c) :: l) = a ++ String.concat ", " (c :: l)).
    { intros [| z l] a c; cbn [String.concat]; rewrite ?append_assoc;
        reflexivity. }
    intros l. induction l as [| y l IH]; intros x; [reflexivity |].
    cbn [fold_left]. rewrite <- IH, !Hhead. reflexivity. }
  rewrite Hjoin, !append_assoc. reflexivity.
Qed.

(** X12. A statement submitted by [backup] begins with [BACKUP ], one
    submitted by [restore] with [RESTORE ]: whatever the clients, the
    arguments and the traces, the two are never the same statement. *)
Theorem backup_never_submits_restore (self self' : Client) (b b' : Backup)
    (table dictionary database temporary_table view : option string)
    (table' dictionary' database' temporary_table' view' : option string)
    (ignored ignored' : option (list string))
    (base base' : option base_backup_value) (w w' : world) (q q' : string) :
  snd (backup self b table dictionary database temporary_table view ignored
              base w)
  = (w ++ [Execute q])%list ->
  snd (restore self' b' table' dictionary' database' temporary_table' view'
               ignored' base' w')
  = (w' ++ [Execute q'])%list ->
  (exists rest, q = "BACKUP " ++ rest)
  /\ (exists rest', q' = "RESTORE " ++ rest')
  /\ q <> q'.
Proof.
  unfold backup, restore. intros H H'.
  apply submitted_statement in H. apply submitted_statement in H'.
  destruct H as (dest & st & _ & _ & ->).
  destruct H' as (dest' & st' & _ & _ & ->).
  split; [eexists; reflexivity |]. split; [eexists; reflexivity |].
  simpl. discriminate.
Qed.

(** X13. A call has three possible ends. It submits one statement and
    returns the driver's answer; or the target is outside the enumeration
    and it raises [ValueError] naming it; or the target is valid, the base
    backup is a non-empty [str], and it raises [AttributeError]. In the last
    two nothing is submitted, and the invalid target is reported first. *)
Theorem backup_command_outcomes (self : Client) (b : Backup)
    (is_backup : bool)
    (table dictionary database temporary_table view : option string)
    (ignored : option (list string)) (base : option base_backup_value)
    (w : world) :
  let r := _backup_command self b is_backup table dictionary database
                           temporary_table view ignored base w in
  (exists q : string,
      r = (session_execute w q, (w ++ [Execute q])%list)
      /\ (exists t, backup_target self = Member t)
      /\ base_has_path base = true)
  \/ (exists shown : string,
         backup_target self = NotMember shown
         /\ r = (inl (ValueError ("Invalid backup target: " ++ shown)), w))
  \/ ((exists t, backup_target self = Member t)
      /\ base_has_path base = false
      /\ r = (inl (AttributeError "'str' object has no attribute 'path'"),
              w)).
Proof.
  cbv zeta. rewrite _backup_command_run.
  destruct (backup_target self) as [t | shown] eqn:Ht.
  - destruct (_get_backup_path_member self t (path b) Ht) as [dest ->].
    unfold settings_clause.
    destruct base as [[fb | [| c s]] |]; simpl.
    + destruct (_get_backup_path_member self t (path fb) Ht) as [d ->].
      left. eexists. repeat split. now exists t.
    + left. eexists. repeat split. now exists t.
    + right. right. repeat split. now exists t.
    + left. eexists. repeat split. now exists t.
  - right. left. exists shown. split; [reflexivity |].
    unfold _get_backup_path. rewrite Ht. reflexivity.
Qed.

End ClientModel.

Arguments execute {Rows} session_execute query w.
Arguments _backup_command {Rows} session_execute self backup is_backup
  table dictionary database temporary_table view ignored_databases
  base_backup w.
Arguments backup {Rows} session_execute self backup
  table dictionary database temporary_table view ignored_databases
  base_backup w.
Arguments restore {Rows} session_execute self backup
  table dictionary database temporary_table view ignored_databases
  base_backup w.
Arguments get_backup_status {Rows} session_execute self w.

(** * The model on concrete calls *)

(** The three configured clients are what the constructor builds. *)
Example file_client_constructed :
  __init__ stub_isdir "localhost" "9000" "default" EmptyString (Member FILE)
           (Some "/backups") None None None None []
  = (inr file_client, [Connect "localhost" "9000" "default" EmptyString]).
Proof. reflexivity. Qed.

Example disk_client_constructed :
  __init__ stub_isdir "localhost" "9000" "default" EmptyString (Member DISK)
           None (Some "backup_disk") None None None []
  = (inr disk_client, [Connect "localhost" "9000" "default" EmptyString]).
Proof. reflexivity. Qed.

Example s3_client_constructed :
  __init__ stub_isdir "localhost" "9000" "default" EmptyString (Member S3)
           None None (Some "https://s3.example.com/bucket") (Some "AK")
           (Some "SK") []
  = (inr s3_client, [Connect "localhost" "9000" "default" EmptyString]).
Proof. reflexivity. Qed.

(** The destination clauses that the specification lists. *)
Example file_destination :
  _get_backup_path file_client "2024" = inr "File('/backups/2024')".
Proof. reflexivity. Qed.

Example disk_destination :
  _get_backup_path disk_client "2024" = inr "Disk('backup_disk', '2024')".
Proof. reflexivity. Qed.

Example s3_destination :
  _get_backup_path s3_client "2024"
  = inr "S3('https://s3.example.com/bucket/2024', 'AK', 'SK')".
Proof. reflexivity. Qed.

(** Nothing is escaped: a quote in the path closes the literal. *)
Example file_destination_unescaped :
  _get_backup_path file_client "x') SETTINGS allow = 1 --"
  = inr "File('/backups/x') SETTINGS allow = 1 --')".
Proof. reflexivity. Qed.

(** A non-empty [str] given to [restore] as base backup, as its annotation
    allows, has no [.path]: the call raises before anything is submitted. *)
Example restore_str_base_raises :
  restore stub_session file_client {| path := "2024" |} (Some "t") None None
          None None None (Some (BaseStr "full")) []
  = (inl (AttributeError "'str' object has no attribute 'path'"), []).
Proof. reflexivity. Qed.

(** C1 on the code. A backup call with no single-object parameter and an
    explicit empty ignored list does not fail: the empty list is replaced by
    the default before the guard on its length is reached, and the
    statement over the default list is submitted. *)
Theorem empty_ignored_list_is_submitted :
  backup stub_session file_client {| path := "2024" |} None None None None
         None (Some []) None []
  = (inr [["BACKUP ALL EXCEPT DATABASES system, INFORMATION_SCHEMA, information_schema TO File('/backups/2024') "]],
     [Execute "BACKUP ALL EXCEPT DATABASES system, INFORMATION_SCHEMA, information_schema TO File('/backups/2024') "]).
Proof.
  unfold backup. rewrite empty_ignored_same_as_default.
  rewrite _backup_command_run. reflexivity.
Qed.

(** C7 as the claim words it fails: the statement of the code ends in a
    blank, which the statement of the claim does not have. *)
Lemma restore_table_with_base_not_bare :
  restore stub_session file_client {| path := "2024" |} (Some "t") None None
          None None None (Some (BaseBackup {| path := "full" |})) []
  <> (stub_session []
        "RESTORE TABLE t FROM File('/backups/2024') SETTINGS base_backup = File('/backups/full')",
      [Execute
         "RESTORE TABLE t FROM File('/backups/2024') SETTINGS base_backup = File('/backups/full')"]).
Proof.
  intros H. apply (f_equal snd) in H. vm_compute in H.
  discriminate H.
Qed.

(** * The theorems at concrete calls *)

(** C2 at a backup that gives an empty table, a dictionary and a database:
    the dictionary decides, and its clause is the only one in the statement
    submitted. *)
Lemma object_clause_by_priority_witness :
  truthy (Some EmptyString) = false /\ truthy (Some "d") = true /\
  _backup_command stub_session file_client {| path := "2024" |} true
                  (Some EmptyString) (Some "d") (Some "db") None None None
                  None []
  = (inr [["BACKUP DICTIONARY d TO File('/backups/2024') "]],
     [Execute "BACKUP DICTIONARY d TO File('/backups/2024') "]).
Proof.
  split; [reflexivity |]. split; [reflexivity |].
  destruct (object_clause_by_priority stub_rows stub_session file_client
              {| path := "2024" |} true (Some EmptyString) (Some "d")
              (Some "db") None None None None [])
    as [[(dest & settings & Hdest & Hset & Hrun) | (e & [He | He] & _)]
          (_ & Hclause & _)].
  - injection Hdest as <-. injection Hset as <-.
    rewrite (Hclause eq_refl eq_refl) in Hrun. exact Hrun.
  - discriminate He.
  - discriminate He.
Defined.

(** C3 at a File target whose directory is not on the filesystem. *)
Lemma init_validates_selected_target_witness :
  truthy (Some "/nope") = true /\ stub_isdir "/nope" = false /\
  __init__ stub_isdir "localhost" "9000" "default" EmptyString (Member FILE)
           (Some "/nope") None None None None []
  = (inl (FileNotFoundError "backup_dir /nope does not exist!"), []).
Proof.
  split; [reflexivity |]. split; [reflexivity |].
  exact (proj1 (proj2
           (init_validates_selected_target stub_isdir "localhost" "9000"
              "default" EmptyString (Some "/nope") None None None None []))
           eq_refl eq_refl).
Defined.

(** C4 at the File client and the path [2024]. *)
Lemma destination_clause_of_configured_client_witness :
  __init__ stub_isdir "localhost" "9000" "default" EmptyString (Member FILE)
           (Some "/backups") None None None None []
  = (inr file_client, [Connect "localhost" "9000" "default" EmptyString])
  /\ exists d : string,
      Some "/backups" = Some d /\
      _get_backup_path file_client "2024"
      = inr ("File('" ++ d ++ "/" ++ "2024" ++ "')").
Proof.
  split; [reflexivity |].
  exact (destination_clause_of_configured_client stub_isdir "localhost"
           "9000" "default" EmptyString FILE (Some "/backups") None None None
           None [] [Connect "localhost" "9000" "default" EmptyString]
           file_client "2024" eq_refl).
Defined.

(** C5 at the File client. *)
Lemma backup_all_except_default_witness :
  _get_backup_path file_client "2024" = inr "File('/backups/2024')" /\
  backup stub_session file_client {| path := "2024" |} None None None None
         None None None []
  = (inr [["BACKUP ALL EXCEPT DATABASES system, INFORMATION_SCHEMA, information_schema TO File('/backups/2024') "]],
     [Execute "BACKUP ALL EXCEPT DATABASES system, INFORMATION_SCHEMA, information_schema TO File('/backups/2024') "]).
Proof.
  split; [reflexivity |].
  exact (proj2
           (backup_all_except_default stub_rows stub_session file_client
              {| path := "2024" |} None None None None None None []
              "File('/backups/2024')" EmptyString
              eq_refl eq_refl eq_refl eq_refl eq_refl eq_refl eq_refl)).
Defined.

(** C6 at the Disk client and the database [mydb]. *)
Lemma backup_database_no_settings_witness :
  str_truthy "mydb" = true /\
  _get_backup_path disk_client "2024" = inr "Disk('backup_disk', '2024')" /\
  backup stub_session disk_client {| path := "2024" |} None None
         (Some "mydb") None None None None []
  = (inr [["BACKUP DATABASE mydb TO Disk('backup_disk', '2024') "]],
     [Execute "BACKUP DATABASE mydb TO Disk('backup_disk', '2024') "]).
Proof.
  split; [reflexivity |]. split; [reflexivity |].
  exact (backup_database_no_settings stub_rows stub_session disk_client
           {| path := "2024" |} None None None None "mydb" None []
           "Disk('backup_disk', '2024')" eq_refl eq_refl eq_refl eq_refl).
Defined.

(** C7 at the File client, the table [t] and the base backup [full]. *)
Lemma restore_table_with_base_witness :
  str_truthy "t" = true /\
  restore stub_session file_client {| path := "2024" |} (Some "t") None None
          None None None (Some (BaseBackup {| path := "full" |})) []
  = (inr [["RESTORE TABLE t FROM File('/backups/2024') SETTINGS base_backup = File('/backups/full') "]],
     [Execute "RESTORE TABLE t FROM File('/backups/2024') SETTINGS base_backup = File('/backups/full') "]).
Proof.
  split; [reflexivity |].
  exact (restore_table_with_base stub_rows stub_session file_client
           {| path := "2024" |} "t" None None None None None
           {| path := "full" |} [] "File('/backups/2024')"
           "File('/backups/full')" eq_refl eq_refl eq_refl).
Defined.

(** C8 at a client whose target is [None]. *)
Lemma invalid_target_fails_witness :
  backup_target (stub_client (NotMember "None") None None None None None)
  = NotMember "None" /\
  backup stub_session (stub_client (NotMember "None") None None None None None)
         {| path := "2024" |} None None (Some "mydb") None None None None []
  = (inl (ValueError "Invalid backup target: None"), []).
Proof.
  split; [reflexivity |].
  exact (proj2
           (invalid_target_fails stub_rows stub_session
              (stub_client (NotMember "None") None None None None None)
              "None" eq_refl)
           {| path := "2024" |} true None None (Some "mydb") None None None
           None []).
Defined.

(** C9 with the stub session, which answers one row holding the query. *)
Lemma get_backup_status_passthrough_witness :
  stub_session [] "SELECT * FROM `system`.backups"
  = inr [["SELECT * FROM `system`.backups"]] /\
  fst (get_backup_status stub_session file_client [])
  = inr [["SELECT * FROM `system`.backups"]].
Proof.
  split; [reflexivity |].
  exact (proj2
           (get_backup_status_passthrough stub_rows stub_session file_client
              [])
           [["SELECT * FROM `system`.backups"]] eq_refl).
Defined.

(** C10 at the S3 client, a view and a base backup. *)
Lemma backup_restore_differ_by_keywords_witness :
  backup stub_session s3_client {| path := "2024" |} None None None None
         (Some "v") None (Some (BaseBackup {| path := "full" |})) []
  = (inr [["BACKUP VIEW v TO S3('https://s3.example.com/bucket/2024', 'AK', 'SK') SETTINGS base_backup = S3('https://s3.example.com/bucket/full', 'AK', 'SK') "]],
     [Execute "BACKUP VIEW v TO S3('https://s3.example.com/bucket/2024', 'AK', 'SK') SETTINGS base_backup = S3('https://s3.example.com/bucket/full', 'AK', 'SK') "])
  /\
  restore stub_session s3_client {| path := "2024" |} None None None None
          (Some "v") None (Some (BaseBackup {| path := "full" |})) []
  = (inr [["RESTORE VIEW v FROM S3('https://s3.example.com/bucket/2024', 'AK', 'SK') SETTINGS base_backup = S3('https://s3.example.com/bucket/full', 'AK', 'SK') "]],
     [Execute "RESTORE VIEW v FROM S3('https://s3.example.com/bucket/2024', 'AK', 'SK') SETTINGS base_backup = S3('https://s3.example.com/bucket/full', 'AK', 'SK') "]).
Proof.
  exact (backup_restore_differ_by_keywords stub_rows stub_session s3_client
           {| path := "2024" |} None None None None (Some "v") None
           (Some (BaseBackup {| path := "full" |})) []
           "S3('https://s3.example.com/bucket/2024', 'AK', 'SK')"
           "SETTINGS base_backup = S3('https://s3.example.com/bucket/full', 'AK', 'SK') "
           eq_refl eq_refl).
Defined.

(** * The further properties at concrete calls *)

(** X1 at the Disk target. *)
Lemma init_succeeds_iff_selected_given_witness :
  selected_parameters_given stub_isdir (Member DISK) None
                            (Some "backup_disk") None None None = true
  /\ exists self : Client,
      __init__ stub_isdir "localhost" "9000" "default" EmptyString
               (Member DISK) None (Some "backup_disk") None None None []
      = (inr self, [Connect "localhost" "9000" "default" EmptyString])
      /\ _host self = "localhost" /\ _port self = "9000"
      /\ _user self = "default" /\ _password self = EmptyString
      /\ _disk self = Some "backup_disk".
Proof.
  split; [reflexivity |].
  destruct (proj1 (init_succeeds_iff_selected_given stub_isdir "localhost"
                     "9000" "default" EmptyString (Member DISK) None
                     (Some "backup_disk") None None None [])
                  eq_refl)
    as (self & Hrun & Hh & Hp & Hu & Hpw & _ & _ & _ & Hdisk & _).
  exists self. repeat split; assumption.
Defined.

(** X3 at an S3 target with an endpoint and no access key. *)
Lemma init_s3_reports_first_missing_witness :
  truthy (Some "https://s3.example.com/bucket") = true /\
  truthy None = false /\
  __init__ stub_isdir "localhost" "9000" "default" EmptyString (Member S3)
           None None (Some "https://s3.example.com/bucket") None None []
  = (inl (ValueError
            "s3_access_key_id must be provided when using S3 backup target"),
     []).
Proof.
  split; [reflexivity |]. split; [reflexivity |].
  exact (proj1 (proj2
           (init_s3_reports_first_missing stub_isdir "localhost" "9000"
              "default" EmptyString None None
              (Some "https://s3.example.com/bucket") None None []))
           eq_refl eq_refl).
Defined.

(** X5 at the S3 client. *)
Lemma destination_clause_injective_witness :
  _get_backup_path s3_client "2024"
  = inr "S3('https://s3.example.com/bucket/2024', 'AK', 'SK')"
  /\ "2024" = "2024".
Proof.
  split; [reflexivity |].
  exact (destination_clause_injective s3_client "2024" "2024"
           "S3('https://s3.example.com/bucket/2024', 'AK', 'SK')"
           eq_refl eq_refl).
Defined.

(** X6 at two Disk clients that differ in the S3 attributes. *)
Lemma unselected_attributes_unused_witness :
  same_destination_config
    disk_client
    (stub_client (Member DISK) (Some "/backups") (Some "backup_disk")
                 (Some "https://s3.example.com/bucket") (Some "AK")
                 (Some "SK"))
  /\ snd (backup stub_session disk_client {| path := "2024" |} None None
                 (Some "mydb") None None None None [])
     = snd (backup stub_session
                   (stub_client (Member DISK) (Some "/backups")
                                (Some "backup_disk")
                                (Some "https://s3.example.com/bucket")
                                (Some "AK") (Some "SK"))
                   {| path := "2024" |} None None (Some "mydb") None None
                   None None []).
Proof.
  split; [split; reflexivity |].
  exact (proj1
           (unselected_attributes_unused stub_rows stub_session disk_client
              (stub_client (Member DISK) (Some "/backups")
                           (Some "backup_disk")
                           (Some "https://s3.example.com/bucket") (Some "AK")
                           (Some "SK"))
              {| path := "2024" |} true None None (Some "mydb") None None
              None None [] (conj eq_refl eq_refl))).
Defined.

(** X7 at the File client and a restore of a dictionary. *)
Lemma configured_client_submits_one_statement_witness :
  backup_target file_client = Member FILE /\
  exists q : string,
    restore stub_session file_client {| path := "2024" |} None (Some "d")
            None None None None None []
    = (stub_session [] q, [Execute q]).
Proof.
  split; [reflexivity |].
  exact (configured_client_submits_one_statement stub_rows stub_session
           file_client FILE {| path := "2024" |} false None (Some "d") None
           None None None None [] eq_refl eq_refl).
Defined.

(** X8 at the File client and the base backup ["full"] given as a [str]. *)
Lemma str_base_backup_raises_witness :
  backup_target file_client = Member FILE /\
  restore stub_session file_client {| path := "2024" |} (Some "t") None None
          None None None (Some (BaseStr "full")) []
  = (inl (AttributeError "'str' object has no attribute 'path'"), []).
Proof.
  split; [reflexivity |].
  exact (proj1
           (str_base_backup_raises stub_rows stub_session file_client FILE
              {| path := "2024" |} false (Some "t") None None None None None
              [] eq_refl)
           "f"%char "ull").
Defined.

(** X10 at a call that gives a table: a dictionary and an ignored list
    beside it change nothing. *)
Lemma first_given_makes_rest_unused_witness :
  truthy (Some "t") = true /\
  backup stub_session file_client {| path := "2024" |} (Some "t") None None
         None None None None []
  = backup stub_session file_client {| path := "2024" |} (Some "t")
           (Some "d") None None None (Some ["logs"]) None [].
Proof.
  split; [reflexivity |].
  exact (proj1
           (first_given_makes_rest_unused stub_rows stub_session file_client
              {| path := "2024" |} true (Some "t") None None None None
              (Some "d") None None None None (Some ["logs"]) None [])
           eq_refl).
Defined.

(** X11 at the Disk client and the ignored list [system, logs]. *)
Lemma explicit_ignored_list_is_joined_witness :
  _get_backup_path disk_client "2024" = inr "Disk('backup_disk', '2024')" /\
  _backup_command stub_session disk_client {| path := "2024" |} true None
                  None None None None (Some ["system"; "logs"]) None []
  = (inr [["BACKUP ALL EXCEPT DATABASES system, logs TO Disk('backup_disk', '2024') "]],
     [Execute "BACKUP ALL EXCEPT DATABASES system, logs TO Disk('backup_disk', '2024') "]).
Proof.
  split; [reflexivity |].
  exact (explicit_ignored_list_is_joined stub_rows stub_session disk_client
           {| path := "2024" |} true None None None None None "system"
           ["logs"] None [] "Disk('backup_disk', '2024')" EmptyString
           eq_refl eq_refl eq_refl eq_refl eq_refl eq_refl eq_refl).
Defined.

(** X12 at a backup and a restore of the same table on the File client. *)
Lemma backup_never_submits_restore_witness :
  "BACKUP TABLE t TO File('/backups/2024') "
  <> "RESTORE TABLE t FROM File('/backups/2024') ".
Proof.
  exact (proj2 (proj2
           (backup_never_submits_restore stub_rows stub_session file_client
              file_client {| path := "2024" |} {| path := "2024" |}
              (Some "t") None None None None (Some "t") None None None None
              None None None None [] []
              "BACKUP TABLE t TO File('/backups/2024') "
              "RESTORE TABLE t FROM File('/backups/2024') "
              eq_refl eq_refl))).
Defined.
